(** * Guster gesture daemon: the recognition engine of [Guster-daemon.py]

    A shallow embedding of the gesture collector, the direction classifier,
    the line patterns and the read loop of [run_daemon], followed by the
    properties the design document states about them.

    Conventions of the embedding.
    - A Python [float] is read as an exact rational [Q]: the classifier and
      the collector only add, multiply, compare and take absolute values, and
      every statement below is about that arithmetic, not about rounding,
      infinities or NaN. Numeric equality in statements is [==] (equality
      of rationals).
    - A Python [int] is a [Z]; [int(x)] on an [int] and [float(x)] on a
      [float] are the identity.
    - A [str] is a [string] of 8-bit characters (code points below 256).
    - [None] results are [option]; a raised exception is an explicit
      constructor of the result type.
    - [print] and process calls are recorded as a list of events; the text of
      a message is kept as a constructor carrying the interpolated values.
    - [time.time()] is an input: every call site receives the clock reading.
    - The collector's lock is free between the calls of the read loop, its
      only caller, so a method that takes it once is a plain state change;
      [end], which calls [reset] while holding it, is modelled with the
      lock: [threading.Lock] is not reentrant. *)

From Stdlib Require Import Ascii String ZArith QArith Qabs Lqa Floats.
From stdpp Require Import gmap strings pretty.

Local Open Scope Q_scope.

(** ** Numbers *)

(** [x < y] and [x <= y] on floats, as booleans. *)
Definition Qltb (x y : Q) : bool :=
  match x ?= y with Lt => true | _ => false end.

Definition Qleb (x y : Q) : bool :=
  match x ?= y with Gt => false | _ => true end.

(** Python's two-argument [max]: the first argument unless the second is
    strictly greater. *)
Definition py_max (x y : Q) : Q := if Qltb x y then y else x.

(** ** Configuration *)

(** [cfg['threshold']]: the two keys the classifier reads. *)
Record threshold := Threshold {
  px_min : Q;       (* threshold['px_min'] *)
  axis_ratio : Q    (* threshold['axis_ratio'] *)
}.

(** ** DirectionClassifier: [determine_direction] *)

(** The four strings the classifier can return. *)
Inductive direction := Right | Left | Down | Up.

Definition direction_name (d : direction) : string :=
  match d with
  | Right => "right"
  | Left => "left"
  | Down => "down"
  | Up => "up"
  end.

Definition determine_direction (dx dy : Q) (th : threshold) : option direction :=
  let ax := Qabs dx in
  let ay := Qabs dy in
  if Qltb (py_max ax ay) (px_min th) then None
  else if Qleb (ay * axis_ratio th) ax then
    Some (if Qltb 0 dx then Right else Left)
  else if Qleb (ax * axis_ratio th) ay then
    Some (if Qltb 0 dy then Down else Up)
  else None.



(** [cfg]: the merged configuration [load_or_create_config] returns. The
    command of a gesture is kept as a string. *)
Record Config := MkConfig {
  cfg_threshold : threshold;           (* cfg['threshold'] *)
  cfg_gestures : gmap string string    (* cfg['gestures'] *)
}.

(** The double-quote character of the two [wmctrl] commands. *)
Definition dquote : string := String (Ascii.ascii_of_nat 34) EmptyString.

Definition wmctrl_command (sign : string) : string :=
  "wmctrl -s $(($(wmctrl -d | grep " +:+ dquote +:+ "\*" +:+ dquote
  +:+ " | cut -d" +:+ dquote +:+ " " +:+ dquote +:+ " -f1) " +:+ sign +:+ " 1))".

Definition CONFIG_DEFAULT : Config :=
  {| cfg_threshold := {| px_min := 50; axis_ratio := 15 # 10 |};
     cfg_gestures :=
       list_to_map
         [ ("3_left", "xdotool key ctrl+Page_Up");
           ("3_right", "xdotool key ctrl+Page_Down");
           ("4_left", wmctrl_command "-");
           ("4_right", wmctrl_command "+");
           ("4_up", "xdotool key Super");
           ("4_down", "xdotool key Super") ] |}.

(** ** GestureAccumulator: class [GestureCollector] *)

Module GestureCollector.

Record t := Make {
  active : bool;
  fingers : Z;
  total_dx : Q;
  total_dy : Q;
  last_time : option Q;
  config : Config
}.

(** [__init__]: [reset()] and then the configuration is stored. *)
Definition init (cfg : Config) : t :=
  {| active := false; fingers := 0; total_dx := 0; total_dy := 0;
     last_time := None; config := cfg |}.

Definition reset (self : t) : t :=
  {| active := false; fingers := 0; total_dx := 0; total_dy := 0;
     last_time := None; config := config self |}.

Definition begin (now : Q) (n : Z) (self : t) : t :=
  {| active := true; fingers := n; total_dx := 0; total_dy := 0;
     last_time := Some now; config := config self |}.

Definition update (now : Q) (dx dy : Q) (self : t) : t :=
  if negb (active self) then self
  else {| active := active self; fingers := fingers self;
          total_dx := total_dx self + dx;
          total_dy := total_dy self + dy;
          last_time := Some now; config := config self |}.

(** A call either returns, or waits for ever for [self.lock]. *)
Inductive outcome (A : Type) :=
  | Returns (a : A)
  | Deadlock.
Arguments Returns {A} a.
Arguments Deadlock {A}.

(** [with self.lock: body]: [held] says whether the calling thread holds
    the lock already. [threading.Lock] is not reentrant, so taking it again
    never returns; otherwise the body runs and the lock is released. *)
Definition with_lock {A} (held : bool) (body : outcome A) : outcome A :=
  if held then Deadlock else body.

(** A call of [reset] by a thread that holds the lock or not:
    [getattr(self, 'lock', ...)] is [self.lock] once [__init__] has set it. *)
Definition reset_call (held : bool) (self : t) : outcome t :=
  with_lock held (Returns (reset self)).

(** [end]: the returned tuple (or [None]) and the collector afterwards, when
    the call returns. The read loop calls it with the lock free; the call of
    [reset] is made inside the [with] block, with the lock held. *)
Definition end_ (n : Z) (self : t) : outcome (option (Z * Q * Q) * t) :=
  with_lock false
    (if negb (active self) then Returns (None, self)
     else
       let f := n in
       let dx := total_dx self in
       let dy := total_dy self in
       match reset_call true self with
       | Returns self' => Returns (Some (f, dx, dy), self')
       | Deadlock => Deadlock
       end).

End GestureCollector.

Import GestureCollector.

(** A run of [update] calls, each with its clock reading. *)
Definition updates (us : list (Q * Q * Q)) (c : GestureCollector.t) : GestureCollector.t :=
  fold_left (fun c u => update u.1.1 u.1.2 u.2 c) us c.

(** The sum of a list of deltas, added from [0.0] in order as [+=] does. *)
Definition Qsum (l : list Q) : Q := fold_left Qplus l 0.

(** ** EventParser: the three line patterns *)

(** *** Character classes *)

Definition code (c : ascii) : N := N_of_ascii c.

(** [\d] *)
Definition is_digit (c : ascii) : bool :=
  ((48 <=? code c) && (code c <=? 57))%N.

(** [\s], which is also what [str.strip] removes: tab to carriage return,
    the four separators, space, next-line and no-break space. *)
Definition is_space (c : ascii) : bool :=
  (((9 <=? code c) && (code c <=? 13)) || ((28 <=? code c) && (code c <=? 32))
   || (code c =? 133) || (code c =? 160))%N.

(** [.]: anything but a line feed. *)
Definition is_dot (c : ascii) : bool := negb (code c =? 10)%N.

(** The class [[\-0-9\.]] of the two delta groups. *)
Definition is_delta_char (c : ascii) : bool :=
  (code c =? 45)%N || is_digit c || (code c =? 46)%N.

(** *** A backtracking matcher for the pattern shapes the daemon uses *)

Inductive atom :=
  | Lit (s : string)                 (* literal text *)
  | Star (cls : ascii -> bool)       (* cls*, greedy *)
  | GroupPlus (cls : ascii -> bool). (* (cls+), greedy, capturing *)

Definition regex := list atom.

Definition LINE_RE_GESTURE_BEGIN : regex :=
  [Lit "GESTURE_SWIPE_BEGIN"; Star is_dot; Lit "n_fingers"; Star is_space;
   GroupPlus is_digit].

Definition LINE_RE_GESTURE_UPDATE : regex :=
  [Lit "GESTURE_SWIPE_UPDATE"; Star is_dot; Lit "delta"; Star is_space;
   GroupPlus is_delta_char; Star is_space; GroupPlus is_delta_char].

Definition LINE_RE_GESTURE_END : regex :=
  [Lit "GESTURE_SWIPE_END"; Star is_dot; Lit "n_fingers"; Star is_space;
   GroupPlus is_digit].

(** The rest of [s] after the literal [l], when [s] starts with it. *)
Fixpoint skip_literal (l s : string) : option string :=
  match l, s with
  | EmptyString, _ => Some s
  | String a l', String b s' => if Ascii.eqb a b then skip_literal l' s' else None
  | String _ _, EmptyString => None
  end.

(** [cls*] followed by the continuation [k]: the longest run first, then
    shorter ones. *)
Fixpoint match_star {A} (cls : ascii -> bool) (k : string -> option A)
    (s : string) : option A :=
  match s with
  | String x s' =>
      if cls x then
        match match_star cls k s' with
        | Some r => Some r
        | None => k s
        end
      else k s
  | EmptyString => k s
  end.

(** The same, returning the text the run consumed. *)
Fixpoint capture_star {A} (cls : ascii -> bool) (k : string -> option A)
    (s : string) : option (string * A) :=
  match s with
  | String x s' =>
      if cls x then
        match capture_star cls k s' with
        | Some (w, r) => Some (String x w, r)
        | None => pair EmptyString <$> k s
        end
      else pair EmptyString <$> k s
  | EmptyString => pair EmptyString <$> k s
  end.

(** Match [re] at the start of [s]; the result lists the groups in order. *)
Fixpoint match_here (re : regex) : string -> option (list string) :=
  match re with
  | [] => fun _ => Some []
  | Lit l :: re' => fun s =>
      match skip_literal l s with
      | Some s' => match_here re' s'
      | None => None
      end
  | Star cls :: re' => match_star cls (match_here re')
  | GroupPlus cls :: re' => fun s =>
      match s with
      | String x s' =>
          if cls x then
            match capture_star cls (match_here re') s' with
            | Some (w, groups) => Some (String x w :: groups)
            | None => None
            end
          else None
      | EmptyString => None
      end
  end.

(** [pattern.search(line)]: the first position from the left that matches. *)
Fixpoint search (re : regex) (s : string) : option (list string) :=
  match match_here re s with
  | Some groups => Some groups
  | None =>
      match s with
      | String _ s' => search re s'
      | EmptyString => None
      end
  end.

(** [m.group(i)], for [i >= 1]. *)
Definition group (i : nat) (m : list string) : option string := m !! pred i.

(** *** [str.strip] *)

Fixpoint lstrip (s : string) : string :=
  match s with
  | String c s' => if is_space c then lstrip s' else s
  | EmptyString => EmptyString
  end.

Fixpoint rstrip (s : string) : string :=
  match s with
  | String c s' =>
      match rstrip s' with
      | EmptyString => if is_space c then EmptyString else String c EmptyString
      | r => String c r
      end
  | EmptyString => EmptyString
  end.

Definition strip (s : string) : string := rstrip (lstrip s).

(** *** [int] and [float] on captured text *)

Definition digit_value (c : ascii) : Z := Z.of_N (code c) - 48.

(** The value of a run of decimal digits, or [None] at the first other
    character. *)
Fixpoint digits_value (acc : Z) (s : string) : option Z :=
  match s with
  | EmptyString => Some acc
  | String c s' =>
      if is_digit c then digits_value (10 * acc + digit_value c)%Z s' else None
  end.

(** [int(text)] on the text of a [(\d+)] group; [None] is [ValueError].
    Signs, underscores and surrounding blanks, which [int] also accepts,
    cannot occur in such a group and are rejected here. The cap some
    interpreters put on the number of digits is not modelled. *)
Definition py_int (s : string) : option Z :=
  match s with
  | EmptyString => None
  | _ => digits_value 0%Z s
  end.

(** The part of [s] before the first ['.'] and, when there is one, the part
    after it. *)
Fixpoint split_point (s : string) : string * option string :=
  match s with
  | EmptyString => (EmptyString, None)
  | String c s' =>
      if (code c =? 46)%N then (EmptyString, Some s')
      else let '(a, b) := split_point s' in (String c a, b)
  end.

Definition pow10 (n : nat) : positive := Nat.iter n (Pos.mul 10) 1%positive.

(** An unsigned decimal: digits, optionally a point and more digits, with at
    least one digit in all. *)
Definition unsigned_decimal (s : string) : option Q :=
  let '(ip, fp) := split_point s in
  let fp' := default EmptyString fp in
  match ip, fp' with
  | EmptyString, EmptyString => None
  | _, _ =>
      n ← digits_value 0%Z (ip +:+ fp');
      Some (n # pow10 (String.length fp'))
  end.

(** [float(text)] on the text of a [([\-0-9\.]+)] group; [None] is
    [ValueError]. Exponents, [inf], [nan], underscores and blanks cannot
    occur in such a group and are rejected here. *)
Definition py_float (s : string) : option Q :=
  match s with
  | String c s' =>
      if (code c =? 45)%N then Qopp <$> unsigned_decimal s'
      else if (code c =? 43)%N then unsigned_decimal s'
      else unsigned_decimal s
  | EmptyString => None
  end.

(** ** Effects *)

(** What a [print] call says; the fields are the values put in the text. *)
Inductive message :=
  | MsgListening
  | MsgIgnored (f : Z) (dx dy : Q)
  | MsgDetected (f : Z) (dir : direction) (key : string)
  | MsgNoMapping (key : string)
  | MsgWouldExecute (command : string)
  | MsgExecuted (command : string)
  | MsgFailed (command : string)
  | MsgInterrupt
  | MsgError.

Inductive event :=
  | Print (m : message)
  | StartProducer               (* Popen(['libinput', 'debug-events'], ...) *)
  | Popen (command : string)    (* Popen(command, shell=True) *)
  | Terminate.                  (* proc.terminate() *)

(** The commands handed to the shell, in order. *)
Fixpoint spawned (out : list event) : list string :=
  match out with
  | [] => []
  | Popen command :: out' => command :: spawned out'
  | _ :: out' => spawned out'
  end.

(** What the producer's output yields next: a line, read at a given clock
    time, an interrupt while waiting, or a failure of the read itself. *)
Inductive stream_item :=
  | Line (now : Q) (raw_line : string)
  | KeyboardInterrupt
  | ReadError.

(** How the loop body ends: with the next iteration, with an exception
    leaving the loop, or not at all, stuck in a call that waits for ever. *)
Inductive body_result :=
  | Next (c : GestureCollector.t) (out : list event)
  | Raised
  | Stuck.

(** How [run_daemon] ends; [Hung] is a run that does not end: it waits for
    ever inside the loop body and reads nothing more. (The interrupts of the
    stream are those that arrive while a line is awaited.) *)
Inductive status := Exhausted | Interrupted | Failed | Hung.

Section Daemon.

(** The loaded configuration, the dry-run flag, and whether launching a
    given command succeeds. *)
Variable cfg : Config.
Variable dry_run : bool.
Variable popen_ok : string -> bool.

Definition execute_action (command : string) (dry : bool) : list event :=
  if decide (command = EmptyString) then []
  else if dry then [Print (MsgWouldExecute command)]
  else if popen_ok command then [Popen command; Print (MsgExecuted command)]
  else [Popen command; Print (MsgFailed command)].

(** The lookup key [f"{f}_{direction}"]. *)
Definition gesture_key (f : Z) (d : direction) : string :=
  pretty f +:+ "_" +:+ direction_name d.

(** GestureDispatcher: the tail of the end branch of the loop body, from
    the unpacked result of [collector.end] on. *)
Definition dispatch (f : Z) (dx dy : Q) : list event :=
  match determine_direction dx dy (cfg_threshold cfg) with
  | None => [Print (MsgIgnored f dx dy)]
  | Some d =>
      let key := gesture_key f d in
      let cmd := cfg_gestures cfg !! key in
      Print (MsgDetected f d key) ::
      match cmd with
      | Some command =>
          if decide (command = EmptyString) then [Print (MsgNoMapping key)]
          else execute_action command dry_run
      | None => [Print (MsgNoMapping key)]
      end
  end.

(** One iteration of [for raw_line in proc.stdout]. *)
Definition loop_body (now : Q) (raw_line : string) (collector : GestureCollector.t)
    : body_result :=
  let line := strip raw_line in
  match search LINE_RE_GESTURE_BEGIN line with
  | Some m =>
      match group 1 m ≫= py_int with
      | Some n => Next (begin now n collector) []
      | None => Raised
      end
  | None =>
  match search LINE_RE_GESTURE_UPDATE line with
  | Some m2 =>
      match group 1 m2 ≫= py_float with
      | Some dx =>
          match group 2 m2 ≫= py_float with
          | Some dy => Next (update now dx dy collector) []
          | None => Raised
          end
      | None => Raised
      end
  | None =>
  match search LINE_RE_GESTURE_END line with
  | Some m3 =>
      match group 1 m3 ≫= py_int with
      | Some n =>
          match end_ n collector with
          | Returns (None, collector') => Next collector' []
          | Returns (Some (f, dx, dy), collector') =>
              Next collector' (dispatch f dx dy)
          | Deadlock => Stuck
          end
      | None => Raised
      end
  | None => Next collector []
  end end end.

(** The [try] statement around the loop: the collector at the end, what
    was printed and run, and why the loop stopped. *)
Fixpoint run_loop (collector : GestureCollector.t) (items : list stream_item)
    : GestureCollector.t * list event * status :=
  match items with
  | [] => (collector, [], Exhausted)
  | KeyboardInterrupt :: _ =>
      (collector, [Print MsgInterrupt; Terminate], Interrupted)
  | ReadError :: _ => (collector, [Print MsgError; Terminate], Failed)
  | Line now raw_line :: rest =>
      match loop_body now raw_line collector with
      | Next collector' out =>
          let '(c, out', st) := run_loop collector' rest in
          (c, out ++ out', st)
      | Raised => (collector, [Print MsgError; Terminate], Failed)
      | Stuck => (collector, [], Hung)
      end
  end.


End Daemon.

(** ** Notions used in the statements *)

(** Every character of [s] is in the class. *)
Fixpoint string_forall (cls : ascii -> bool) (s : string) : bool :=
  match s with
  | EmptyString => true
  | String c s' => cls c && string_forall cls s'
  end.

(** The classes of the groups of a pattern, in order. *)
Fixpoint group_classes (re : regex) : list (ascii -> bool) :=
  match re with
  | [] => []
  | GroupPlus cls :: re' => cls :: group_classes re'
  | _ :: re' => group_classes re'
  end.

(** A captured text fits its group: one or more characters of the class. *)
Definition fits (cls : ascii -> bool) (g : string) : Prop :=
  g <> EmptyString /\ string_forall cls g = true.

(** The deltas of a run of [update] calls. *)
Definition dxs (us : list (Q * Q * Q)) : list Q := map (fun u => u.1.2) us.
Definition dys (us : list (Q * Q * Q)) : list Q := map (fun u => u.2) us.

(** ** Configuration loading: the merge of [load_or_create_config] *)

(** What [yaml.safe_load(fp) or {}] holds under the two keys the merge reads,
    [None] for an absent key. Thresholds are numbers and commands strings;
    the files, the YAML text, and a key that is present with something other
    than a dictionary under it are outside the model. *)
Record UserConfig := MkUserConfig {
  user_threshold : option (gmap string Q);      (* cfg.get('threshold') *)
  user_gestures : option (gmap string string)   (* cfg.get('gestures') *)
}.

(** [d.update(u)] on a copy of [d]: the entries of [u] win. *)
Definition dict_update {V} (d u : gmap string V) : gmap string V := u ∪ d.

(** [CONFIG_DEFAULT['threshold']] as the dictionary it is. *)
Definition THRESHOLD_DEFAULT : gmap string Q :=
  {[ "px_min" := px_min (cfg_threshold CONFIG_DEFAULT);
     "axis_ratio" := axis_ratio (cfg_threshold CONFIG_DEFAULT) ]}.

(** [merged['threshold']] and [merged['gestures']]. *)
Definition merged_threshold (cfg : UserConfig) : gmap string Q :=
  dict_update THRESHOLD_DEFAULT (default ∅ (user_threshold cfg)).

Definition merged_gestures (cfg : UserConfig) : gmap string string :=
  dict_update (cfg_gestures CONFIG_DEFAULT) (default ∅ (user_gestures cfg)).

(** The two subscripts of [determine_direction]; [None] is [KeyError]. *)
Definition read_threshold (d : gmap string Q) : option threshold :=
  px ← d !! "px_min"; ratio ← d !! "axis_ratio"; Some (Threshold px ratio).

(** The configuration the daemon runs with, as far as it reads it. *)
Definition load_config (cfg : UserConfig) : option Config :=
  th ← read_threshold (merged_threshold cfg);
  Some (MkConfig th (merged_gestures cfg)).

(** ** The entry point *)



(** ** The loop body read as a parser followed by a handler *)

(** What one line is to the loop body: which pattern wins and what the
    conversions give. [EvBad] is a line whose conversion raises. *)
Inductive line_event :=
  | EvBegin (n : Z)
  | EvUpdate (dx dy : Q)
  | EvEnd (n : Z)
  | EvNone
  | EvBad.

Definition parse_line (raw_line : string) : line_event :=
  let line := strip raw_line in
  match search LINE_RE_GESTURE_BEGIN line with
  | Some m =>
      match group 1 m ≫= py_int with
      | Some n => EvBegin n
      | None => EvBad
      end
  | None =>
  match search LINE_RE_GESTURE_UPDATE line with
  | Some m2 =>
      match group 1 m2 ≫= py_float with
      | Some dx =>
          match group 2 m2 ≫= py_float with
          | Some dy => EvUpdate dx dy
          | None => EvBad
          end
      | None => EvBad
      end
  | None =>
  match search LINE_RE_GESTURE_END line with
  | Some m3 =>
      match group 1 m3 ≫= py_int with
      | Some n => EvEnd n
      | None => EvBad
      end
  | None => EvNone
  end end end.





(** Swapping the two axes of a direction, and mirroring one of them. *)
Definition transpose (d : direction) : direction :=
  match d with Right => Down | Left => Up | Down => Right | Up => Left end.

Definition mirror_x (d : direction) : direction :=
  match d with Right => Left | Left => Right | d => d end.

Definition mirror_y (d : direction) : direction :=
  match d with Down => Up | Up => Down | d => d end.

(** * Properties *)

(** ** Comparisons *)

Lemma Qcompare_cases x y :
  (x < y /\ (x ?= y) = Lt) \/ (x == y /\ (x ?= y) = Eq) \/ (y < x /\ (x ?= y) = Gt).
Proof.
  destruct (x ?= y) eqn:E.
  - right. left. split; [now apply Qeq_alt | reflexivity].
  - left. split; [now apply Qlt_alt | reflexivity].
  - right. right. split; [now apply Qgt_alt | reflexivity].
Qed.

Lemma Qltb_lt x y : Qltb x y = true <-> x < y.
Proof.
  unfold Qltb.
  destruct (Qcompare_cases x y) as [[H ->]|[[H ->]|[H ->]]];
    split; intros; (congruence || lra).
Qed.

Lemma Qltb_ge x y : Qltb x y = false <-> y <= x.
Proof.
  unfold Qltb.
  destruct (Qcompare_cases x y) as [[H ->]|[[H ->]|[H ->]]];
    split; intros; (congruence || lra).
Qed.

Lemma Qleb_le x y : Qleb x y = true <-> x <= y.
Proof.
  unfold Qleb.
  destruct (Qcompare_cases x y) as [[H ->]|[[H ->]|[H ->]]];
    split; intros; (congruence || lra).
Qed.

Lemma Qleb_gt x y : Qleb x y = false <-> y < x.
Proof.
  unfold Qleb.
  destruct (Qcompare_cases x y) as [[H ->]|[[H ->]|[H ->]]];
    split; intros; (congruence || lra).
Qed.

Lemma py_max_cases x y : (y <= x /\ py_max x y = x) \/ (x < y /\ py_max x y = y).
Proof.
  unfold py_max. destruct (Qltb x y) eqn:E.
  - right. split; [now apply Qltb_lt | reflexivity].
  - left. split; [now apply Qltb_ge | reflexivity].
Qed.

Lemma py_max_ge_l x y : x <= py_max x y.
Proof. destruct (py_max_cases x y) as [[H ->]|[H ->]]; lra. Qed.

Lemma py_max_ge_r x y : y <= py_max x y.
Proof. destruct (py_max_cases x y) as [[H ->]|[H ->]]; lra. Qed.

Lemma Qabs_zero_iff x : Qabs x == 0 <-> x == 0.
Proof.
  split; intros H.
  - revert H. apply Qabs_case; intros; lra.
  - rewrite H. reflexivity.
Qed.

(** The four tests of [determine_direction], read as propositions. *)
Ltac classify_cases :=
  unfold determine_direction; cbv zeta;
  repeat match goal with
  | |- context [Qltb ?a ?b] =>
      let E := fresh "E" in
      destruct (Qltb a b) eqn:E;
      [apply Qltb_lt in E | apply Qltb_ge in E]
  | |- context [Qleb ?a ?b] =>
      let E := fresh "E" in
      destruct (Qleb a b) eqn:E;
      [apply Qleb_le in E | apply Qleb_gt in E]
  end.

(** ** The direction classifier *)

(** C5: a displacement whose larger axis is below [px_min] has no
    direction, whatever the axis ratio is. *)
Theorem too_small_is_None (dx dy : Q) (th : threshold) :
  py_max (Qabs dx) (Qabs dy) < px_min th ->
  determine_direction dx dy th = None.
Proof.
  intros H. unfold determine_direction. cbv zeta.
  apply Qltb_lt in H. rewrite H. reflexivity.
Qed.

Lemma too_small_is_None_witness :
  py_max (Qabs 10) (Qabs (-20)) < px_min (cfg_threshold CONFIG_DEFAULT)
  /\ determine_direction 10 (-20) (cfg_threshold CONFIG_DEFAULT) = None.
Proof.
  split.
  - reflexivity.
  - apply too_small_is_None. reflexivity.
Defined.

(** C4: once the larger axis reaches [px_min], a horizontal axis that is at
    least [axis_ratio] times the vertical one gives [Right] for [dx > 0] and
    [Left] otherwise; failing that, a vertical axis that is at least
    [axis_ratio] times the horizontal one gives [Down] for [dy > 0] and [Up]
    otherwise. With the default thresholds (50, 1.5): (100, 0) is [Right],
    (-100, 0) is [Left], (0, 100) is [Down]. *)
Theorem axis_selection :
  (forall (dx dy : Q) (th : threshold),
     px_min th <= py_max (Qabs dx) (Qabs dy) ->
     (Qabs dy * axis_ratio th <= Qabs dx ->
        (0 < dx -> determine_direction dx dy th = Some Right)
        /\ (~ 0 < dx -> determine_direction dx dy th = Some Left))
     /\ (~ Qabs dy * axis_ratio th <= Qabs dx ->
         Qabs dx * axis_ratio th <= Qabs dy ->
        (0 < dy -> determine_direction dx dy th = Some Down)
        /\ (~ 0 < dy -> determine_direction dx dy th = Some Up)))
  /\ determine_direction 100 0 (Threshold 50 (15 # 10)) = Some Right
  /\ determine_direction (-100) 0 (Threshold 50 (15 # 10)) = Some Left
  /\ determine_direction 0 100 (Threshold 50 (15 # 10)) = Some Down.
Proof.
  split; [| repeat split; reflexivity].
  intros dx dy th Hmin. split.
  - intros Hx. split; intros Hs; classify_cases; solve [reflexivity | lra].
  - intros Hnx Hy. split; intros Hs; classify_cases; solve [reflexivity | lra].
Qed.

Lemma axis_selection_witness :
  px_min (Threshold 50 (15 # 10)) <= py_max (Qabs (-80)) (Qabs 20)
  /\ Qabs 20 * axis_ratio (Threshold 50 (15 # 10)) <= Qabs (-80)
  /\ ~ 0 < -80
  /\ determine_direction (-80) 20 (Threshold 50 (15 # 10)) = Some Left.
Proof.
  assert (Hmin : px_min (Threshold 50 (15 # 10)) <= py_max (Qabs (-80)) (Qabs 20))
    by (vm_compute; discriminate).
  assert (Hx : Qabs 20 * axis_ratio (Threshold 50 (15 # 10)) <= Qabs (-80))
    by (vm_compute; discriminate).
  assert (Hs : ~ 0 < -80) by (vm_compute; discriminate).
  split; [exact Hmin | split; [exact Hx | split; [exact Hs |]]].
  exact (proj2 (proj1 (proj1 axis_selection (-80) 20 _ Hmin) Hx) Hs).
Defined.

(** C2, as the code has it: on an exact diagonal that reaches [px_min], an
    axis ratio of exactly 1 selects the horizontal axis, [Right] for [dx > 0]
    and [Left] otherwise; the first test is not strict. *)
Theorem diagonal_at_ratio_one (dx dy : Q) (th : threshold) :
  Qabs dx == Qabs dy ->
  px_min th <= py_max (Qabs dx) (Qabs dy) ->
  axis_ratio th == 1 ->
  (0 < dx -> determine_direction dx dy th = Some Right)
  /\ (~ 0 < dx -> determine_direction dx dy th = Some Left).
Proof.
  intros Hd Hmin Hr.
  assert (Hx : Qabs dy * axis_ratio th <= Qabs dx) by (rewrite Hr, Hd; lra).
  split; intros Hs; classify_cases; solve [reflexivity | lra].
Qed.

Lemma diagonal_at_ratio_one_witness :
  Qabs (-70) == Qabs 70
  /\ px_min (Threshold 50 1) <= py_max (Qabs (-70)) (Qabs 70)
  /\ axis_ratio (Threshold 50 1) == 1
  /\ determine_direction (-70) 70 (Threshold 50 1) = Some Left.
Proof.
  assert (Hd : Qabs (-70) == Qabs 70) by reflexivity.
  assert (Hmin : px_min (Threshold 50 1) <= py_max (Qabs (-70)) (Qabs 70))
    by (vm_compute; discriminate).
  assert (Hr : axis_ratio (Threshold 50 1) == 1) by reflexivity.
  split; [exact Hd | split; [exact Hmin | split; [exact Hr |]]].
  apply (diagonal_at_ratio_one (-70) 70 (Threshold 50 1) Hd Hmin Hr).
  vm_compute; discriminate.
Defined.

(** C2 as stated fails: the diagonal (100, 100) with thresholds (50, 1.0)
    meets both of its conditions and is classified [Right], not [None]. *)
Lemma diagonal_at_ratio_one_counterexample :
  Qabs 100 == Qabs 100
  /\ px_min (Threshold 50 1) <= py_max (Qabs 100) (Qabs 100)
  /\ axis_ratio (Threshold 50 1) == 1
  /\ determine_direction 100 100 (Threshold 50 1) = Some Right
  /\ determine_direction 100 100 (Threshold 50 1) <> None.
Proof.
  repeat split; try reflexivity; vm_compute; discriminate.
Qed.






(** C10: with [px_min > 0] and [axis_ratio >= 1], a horizontal result means
    [|dx|] reaches [px_min] and is at least [|dy|]; a vertical result means
    [|dy|] reaches [px_min] and is at least [|dx|]. *)
Theorem selected_axis_is_dominant (dx dy : Q) (th : threshold) :
  0 < px_min th ->
  1 <= axis_ratio th ->
  (determine_direction dx dy th = Some Right
   \/ determine_direction dx dy th = Some Left ->
   px_min th <= Qabs dx /\ Qabs dy <= Qabs dx)
  /\ (determine_direction dx dy th = Some Down
      \/ determine_direction dx dy th = Some Up ->
      px_min th <= Qabs dy /\ Qabs dx <= Qabs dy).
Proof.
  intros Hp Hr.
  pose proof (Qabs_nonneg dx) as Hx. pose proof (Qabs_nonneg dy) as Hy.
  destruct (py_max_cases (Qabs dx) (Qabs dy)) as [[Hc Hm] | [Hc Hm]];
    split; intros [H | H]; revert H; classify_cases; intros H;
    try discriminate H; rewrite Hm in *; split; nra.
Qed.

Lemma selected_axis_is_dominant_witness :
  0 < px_min (Threshold 50 (15 # 10))
  /\ 1 <= axis_ratio (Threshold 50 (15 # 10))
  /\ determine_direction 10 (-90) (Threshold 50 (15 # 10)) = Some Up
  /\ px_min (Threshold 50 (15 # 10)) <= Qabs (-90)
  /\ Qabs 10 <= Qabs (-90).
Proof.
  assert (Hp : 0 < px_min (Threshold 50 (15 # 10))) by reflexivity.
  assert (Hr : 1 <= axis_ratio (Threshold 50 (15 # 10)))
    by (vm_compute; discriminate).
  assert (Hu : determine_direction 10 (-90) (Threshold 50 (15 # 10)) = Some Up)
    by reflexivity.
  split; [exact Hp | split; [exact Hr | split; [exact Hu |]]].
  exact (proj2 (selected_axis_is_dominant 10 (-90) (Threshold 50 (15 # 10)) Hp Hr)
               (or_intror Hu)).
Defined.

(** ** The collector *)

Lemma updates_cons u us c :
  updates (u :: us) c = updates us (update u.1.1 u.1.2 u.2 c).
Proof. reflexivity. Qed.

Lemma updates_active us : forall c, active (updates us c) = active c.
Proof.
  induction us as [| u us IH]; intros c; [reflexivity |].
  rewrite updates_cons, IH. unfold update.
  destruct (active c) eqn:E; simpl; [reflexivity | exact E].
Qed.

Lemma updates_totals us : forall c,
  active c = true ->
  total_dx (updates us c) = fold_left Qplus (dxs us) (total_dx c)
  /\ total_dy (updates us c) = fold_left Qplus (dys us) (total_dy c).
Proof.
  induction us as [| u us IH]; intros c Hc; [split; reflexivity |].
  rewrite updates_cons.
  assert (Hstep : update u.1.1 u.1.2 u.2 c =
                  Make true (fingers c) (total_dx c + u.1.2) (total_dy c + u.2)
                       (Some u.1.1) (config c)).
  { unfold update. rewrite Hc. reflexivity. }
  rewrite Hstep.
  exact (IH (Make true (fingers c) (total_dx c + u.1.2) (total_dy c + u.2)
                  (Some u.1.1) (config c)) eq_refl).
Qed.

Lemma updates_config us : forall c, config (updates us c) = config c.
Proof.
  induction us as [| u us IH]; intros c; [reflexivity |].
  rewrite updates_cons, IH. unfold update. destruct (active c); reflexivity.
Qed.

Lemma updates_inactive us : forall c, active c = false -> updates us c = c.
Proof.
  induction us as [| u us IH]; intros c Hc; [reflexivity |].
  rewrite updates_cons. unfold update. rewrite Hc. simpl. apply IH, Hc.
Qed.

(** C3, against the code: [begin(n)], any run of [update] calls and
    [end(m)] do not return the snapshot. When [end] is called the collector
    is active, and [end] then calls [reset] inside its own [with self.lock]
    block; [reset] takes the same lock, which is not reentrant, so the call
    never returns: no snapshot, and the session is not reset. So it is for
    [begin(3); update(10,0); update(20,0); end(3)]. *)
Theorem end_of_active_session_deadlocks :
  (forall (c : GestureCollector.t) (now : Q) (n m : Z) (us : list (Q * Q * Q)),
     active (updates us (begin now n c)) = true
     /\ end_ m (updates us (begin now n c)) = Deadlock)
  /\ (forall (c : GestureCollector.t) (t0 t1 t2 : Q),
        end_ 3 (update t2 20 0 (update t1 10 0 (begin t0 3 c))) = Deadlock).
Proof.
  split.
  - intros c now n m us.
    assert (Ha : active (updates us (begin now n c)) = true)
      by now rewrite updates_active.
    split; [exact Ha |].
    unfold end_, with_lock, reset_call. rewrite Ha. reflexivity.
  - intros c t0 t1 t2. reflexivity.
Qed.

(** C7: [begin] makes the collector active with the given finger count and
    zero totals from every state; a [begin(4)] after [begin(3)] and any
    updates in between starts over with 4 fingers and totals (0, 0). *)
Theorem begin_overwrites :
  (forall (c : GestureCollector.t) (now : Q) (n : Z),
     active (begin now n c) = true
     /\ fingers (begin now n c) = n
     /\ total_dx (begin now n c) = 0
     /\ total_dy (begin now n c) = 0
     /\ last_time (begin now n c) = Some now)
  /\ (forall (c : GestureCollector.t) (t1 t2 : Q) (us : list (Q * Q * Q)),
        begin t2 4 (updates us (begin t1 3 c))
        = Make true 4 0 0 (Some t2) (config c)).
Proof.
  split.
  - intros c now n. repeat split.
  - intros c t1 t2 us. unfold begin at 1. rewrite updates_config. reflexivity.
Qed.

(** ** Captured groups *)

Lemma match_star_inv {A} cls (k : string -> option A) s r :
  match_star cls k s = Some r -> exists s', k s' = Some r.
Proof.
  induction s as [| x s IH]; simpl; intros H.
  - eauto.
  - destruct (cls x); [| eauto].
    destruct (match_star cls k s) as [r' |]; [| eauto].
    apply IH. exact H.
Qed.

Lemma capture_star_inv {A} cls (k : string -> option A) s w r :
  capture_star cls k s = Some (w, r) ->
  string_forall cls w = true /\ exists s', k s' = Some r.
Proof.
  revert w. induction s as [| x s IH]; simpl; intros w H.
  - destruct (k EmptyString) eqn:E; simpl in H; [| discriminate].
    injection H as <- <-. eauto.
  - destruct (cls x) eqn:Ex.
    + destruct (capture_star cls k s) as [[w' r'] |].
      * injection H as <- <-. destruct (IH w' eq_refl) as [Hw Hk].
        simpl. rewrite Ex, Hw. eauto.
      * destruct (k (String x s)) eqn:E; simpl in H; [| discriminate].
        injection H as <- <-. eauto.
    + destruct (k (String x s)) eqn:E; simpl in H; [| discriminate].
      injection H as <- <-. eauto.
Qed.

Lemma match_here_groups re : forall s m,
  match_here re s = Some m -> Forall2 fits (group_classes re) m.
Proof.
  induction re as [| a re IH]; intros s m H.
  - injection H as <-. constructor.
  - destruct a as [l | cls | cls]; simpl in H |- *.
    + destruct (skip_literal l s) as [s' |]; [eauto | discriminate].
    + apply match_star_inv in H as [s' H]. eauto.
    + destruct s as [| x s]; [discriminate |].
      destruct (cls x) eqn:Ex; [| discriminate].
      destruct (capture_star cls (match_here re) s) as [[w groups] |] eqn:E;
        [| discriminate].
      injection H as <-. apply capture_star_inv in E as [Hw [s' Hk]].
      constructor; [| eauto].
      split; [discriminate | simpl; now rewrite Ex, Hw].
Qed.

Lemma search_groups re s m :
  search re s = Some m -> Forall2 fits (group_classes re) m.
Proof.
  induction s as [| x s IH]; simpl; intros H.
  - destruct (match_here re EmptyString) eqn:E; [| discriminate].
    injection H as <-. eapply match_here_groups, E.
  - destruct (match_here re (String x s)) eqn:E.
    + injection H as <-. eapply match_here_groups, E.
    + auto.
Qed.

Lemma digits_value_total s : forall acc,
  string_forall is_digit s = true -> exists n, digits_value acc s = Some n.
Proof.
  induction s as [| c s IH]; simpl; intros acc H; [eauto |].
  apply andb_true_iff in H as [Hc Hs]. rewrite Hc. auto.
Qed.

Lemma py_int_fits g : fits is_digit g -> exists n, py_int g = Some n.
Proof.
  intros [Hne Hd]. destruct g as [| c g]; [congruence |].
  unfold py_int. now apply digits_value_total.
Qed.

(** A line that matches the begin or the end pattern captures one group,
    a run of digits, which [py_int] converts. *)
Lemma finger_count_parses re line m :
  group_classes re = [is_digit] ->
  search re line = Some m ->
  exists n, group 1 m ≫= py_int = Some n.
Proof.
  intros Hre H. apply search_groups in H. rewrite Hre in H.
  inversion H as [| cls g ? ? Hfit Hrest]; subst.
  inversion Hrest; subst.
  destruct (py_int_fits g Hfit) as [n Hn]. exists n. exact Hn.
Qed.

(** ** Stray events *)

Lemma end_inactive (c : GestureCollector.t) (m : Z) :
  active c = false -> end_ m c = Returns (None, c).
Proof. intros H. unfold end_, with_lock. rewrite H. reflexivity. Qed.

(** C8: while the collector is inactive, [update] changes nothing and [end]
    returns [None] and changes nothing; so a second [end] in a row again
    returns [None], a [begin] after a stray [update] starts a zeroed
    session, and in the read loop a line of the end shape whose finger count
    converts (or of the update shape, with well-formed deltas) produces no
    event at all: nothing is dispatched. *)
Theorem stray_events_are_ignored (c : GestureCollector.t) :
  active c = false ->
  (forall now dx dy, update now dx dy c = c)
  /\ (forall m, end_ m c = Returns (None, c))
  /\ (forall m n,
        exists c1, end_ m c = Returns (None, c1)
                   /\ end_ n c1 = Returns (None, c1) /\ c1 = c)
  /\ (forall t dx dy now n,
        begin now n (update t dx dy c) = Make true n 0 0 (Some now) (config c))
  /\ (forall cfg dry_run popen_ok now raw_line m3 g n,
        search LINE_RE_GESTURE_BEGIN (strip raw_line) = None ->
        search LINE_RE_GESTURE_UPDATE (strip raw_line) = None ->
        search LINE_RE_GESTURE_END (strip raw_line) = Some m3 ->
        group 1 m3 = Some g ->
        (String.length g <= 4300)%nat ->
        py_int g = Some n ->
        loop_body cfg dry_run popen_ok now raw_line c = Next c [])
  /\ (forall cfg dry_run popen_ok now raw_line m2 dx dy,
        search LINE_RE_GESTURE_BEGIN (strip raw_line) = None ->
        search LINE_RE_GESTURE_UPDATE (strip raw_line) = Some m2 ->
        group 1 m2 ≫= py_float = Some dx ->
        group 2 m2 ≫= py_float = Some dy ->
        loop_body cfg dry_run popen_ok now raw_line c = Next c []).
Proof.
  intros H.
  assert (Hup : forall now dx dy, update now dx dy c = c).
  { intros now dx dy. unfold update. rewrite H. reflexivity. }
  split; [exact Hup |].
  split; [intros m; now apply end_inactive |].
  split; [intros m n; exists c; now rewrite !end_inactive |].
  split; [intros t dx dy now n; rewrite Hup; reflexivity |].
  split.
  - intros cfg dry_run popen_ok now raw_line m3 g n Hb Hu He Hg _ Hn.
    unfold loop_body. cbv zeta. rewrite Hb, Hu, He, Hg. cbn [mbind option_bind].
    rewrite Hn, (end_inactive c n H). reflexivity.
  - intros cfg dry_run popen_ok now raw_line m2 dx dy Hb Hu Hdx Hdy.
    unfold loop_body. cbv zeta. rewrite Hb, Hu, Hdx, Hdy, Hup. reflexivity.
Qed.

Lemma stray_events_are_ignored_witness :
  active (init CONFIG_DEFAULT) = false
  /\ update 1 5 5 (init CONFIG_DEFAULT) = init CONFIG_DEFAULT
  /\ begin 2 4 (update 1 5 5 (init CONFIG_DEFAULT))
     = Make true 4 0 0 (Some 2) CONFIG_DEFAULT
  /\ loop_body CONFIG_DEFAULT false (fun _ => true) 3
       " event7  GESTURE_SWIPE_END +3.1s n_fingers 3 " (init CONFIG_DEFAULT)
     = Next (init CONFIG_DEFAULT) [].
Proof.
  pose proof (stray_events_are_ignored (init CONFIG_DEFAULT) eq_refl)
    as (Hup & _ & _ & Hbegin & Hend & _).
  split; [reflexivity |].
  split; [apply Hup |].
  split; [apply Hbegin |].
  apply (Hend CONFIG_DEFAULT false (fun _ => true) 3 _ ["3"%string] "3"%string 3%Z);
    try (vm_compute; reflexivity).
  cbn [String.length]. lia.
Defined.

(** ** Dispatch *)

Lemma execute_action_spawned popen_ok command dry :
  command <> EmptyString ->
  spawned (execute_action popen_ok command dry) = if dry then [] else [command].
Proof.
  intros Hne. unfold execute_action.
  destruct (decide (command = EmptyString)) as [He | _]; [contradiction |].
  destruct dry; [reflexivity |].
  destruct (popen_ok command); reflexivity.
Qed.

(** C9, as the code has it: for a finalized gesture with a direction, a key
    mapped to a non-empty command hands that command to [execute_action]
    once, which launches it once (or, in a dry run, only reports it); a key
    that is absent, or mapped to an empty command, is reported as having no
    mapping and nothing is launched. Without a direction the gesture is
    reported as too small, whatever the mapping holds. No case raises. *)
Theorem dispatch_outcomes (cfg : Config) (dry_run : bool)
    (popen_ok : string -> bool) (f : Z) (dx dy : Q) :
  (forall d command,
     determine_direction dx dy (cfg_threshold cfg) = Some d ->
     cfg_gestures cfg !! gesture_key f d = Some command ->
     command <> EmptyString ->
     dispatch cfg dry_run popen_ok f dx dy
     = Print (MsgDetected f d (gesture_key f d))
       :: execute_action popen_ok command dry_run
     /\ spawned (dispatch cfg dry_run popen_ok f dx dy)
        = if dry_run then [] else [command])
  /\ (forall d,
        determine_direction dx dy (cfg_threshold cfg) = Some d ->
        cfg_gestures cfg !! gesture_key f d = None
        \/ cfg_gestures cfg !! gesture_key f d = Some EmptyString ->
        dispatch cfg dry_run popen_ok f dx dy
        = [Print (MsgDetected f d (gesture_key f d));
           Print (MsgNoMapping (gesture_key f d))])
  /\ (determine_direction dx dy (cfg_threshold cfg) = None ->
      dispatch cfg dry_run popen_ok f dx dy = [Print (MsgIgnored f dx dy)]).
Proof.
  split; [| split].
  - intros d command Hd Hk Hne.
    assert (Heq : dispatch cfg dry_run popen_ok f dx dy
                  = Print (MsgDetected f d (gesture_key f d))
                    :: execute_action popen_ok command dry_run).
    { unfold dispatch. rewrite Hd. cbv zeta. rewrite Hk.
      destruct (decide (command = EmptyString)); [contradiction | reflexivity]. }
    split; [exact Heq |].
    rewrite Heq. simpl. now apply execute_action_spawned.
  - intros d Hd [Hk | Hk]; unfold dispatch; rewrite Hd; cbv zeta; rewrite Hk;
      reflexivity.
  - intros Hd. unfold dispatch. rewrite Hd. reflexivity.
Qed.

Lemma dispatch_outcomes_witness :
  determine_direction (-100) 0 (Threshold 50 (15 # 10)) = Some Left
  /\ ({[ "3_left" := "cmd-A" ]} : gmap string string) !! gesture_key 3 Left
     = Some "cmd-A"
  /\ spawned (dispatch (MkConfig (Threshold 50 (15 # 10)) {[ "3_left" := "cmd-A" ]})
                       false (fun _ => true) 3 (-100) 0) = ["cmd-A"]
  /\ determine_direction 100 0 (Threshold 50 (15 # 10)) = Some Right
  /\ ({[ "3_left" := "cmd-A" ]} : gmap string string) !! gesture_key 3 Right = None
  /\ dispatch (MkConfig (Threshold 50 (15 # 10)) {[ "3_left" := "cmd-A" ]})
              false (fun _ => true) 3 100 0
     = [Print (MsgDetected 3 Right "3_right"); Print (MsgNoMapping "3_right")].
Proof.
  pose proof (dispatch_outcomes
                (MkConfig (Threshold 50 (15 # 10)) {[ "3_left" := "cmd-A" ]})
                false (fun _ => true) 3 (-100) 0) as (Hmapped & _ & _).
  pose proof (dispatch_outcomes
                (MkConfig (Threshold 50 (15 # 10)) {[ "3_left" := "cmd-A" ]})
                false (fun _ => true) 3 100 0) as (_ & Hunmapped & _).
  assert (Hl : determine_direction (-100) 0 (Threshold 50 (15 # 10)) = Some Left)
    by reflexivity.
  assert (Hkl : ({[ "3_left" := "cmd-A" ]} : gmap string string)
                !! gesture_key 3 Left = Some "cmd-A")
    by (vm_compute; reflexivity).
  assert (Hr : determine_direction 100 0 (Threshold 50 (15 # 10)) = Some Right)
    by reflexivity.
  assert (Hkr : ({[ "3_left" := "cmd-A" ]} : gmap string string)
                !! gesture_key 3 Right = None)
    by (vm_compute; reflexivity).
  split; [exact Hl | split; [exact Hkl | split]].
  - apply (Hmapped Left "cmd-A" Hl Hkl). discriminate.
  - split; [exact Hr | split; [exact Hkr |]].
    apply (Hunmapped Right Hr). left. exact Hkr.
Defined.

(** C9 as stated fails: with ["3_left"] mapped to the empty command, the
    gesture (3, left) finds its key in the mapping, and yet nothing is
    launched and the gesture is reported as having no mapping. *)
Lemma dispatch_outcomes_counterexample :
  determine_direction (-100) 0 (Threshold 50 (15 # 10)) = Some Left
  /\ ({[ "3_left" := EmptyString ]} : gmap string string) !! gesture_key 3 Left = Some EmptyString
  /\ dispatch (MkConfig (Threshold 50 (15 # 10)) {[ "3_left" := EmptyString ]})
              false (fun _ => true) 3 (-100) 0
     = [Print (MsgDetected 3 Left "3_left"); Print (MsgNoMapping "3_left")]
  /\ spawned (dispatch (MkConfig (Threshold 50 (15 # 10)) {[ "3_left" := EmptyString ]})
                       false (fun _ => true) 3 (-100) 0) = [].
Proof.
  split; [reflexivity |].
  split; [vm_compute; reflexivity |].
  split; vm_compute; reflexivity.
Qed.

(** ** The read loop *)

(** C1, as the code has it: a line of the update shape (and not of the begin
    shape) one of whose captured deltas [float] rejects raises out of the
    loop body; the handler around the whole loop reports the error and
    terminates the producer, the collector is left as it was, and no later
    item of the stream is processed. *)
Theorem malformed_delta_ends_the_run (cfg : Config) (dry_run : bool)
    (popen_ok : string -> bool) (c : GestureCollector.t) (now : Q)
    (raw_line : string) (rest : list stream_item) (m2 : list string) :
  search LINE_RE_GESTURE_BEGIN (strip raw_line) = None ->
  search LINE_RE_GESTURE_UPDATE (strip raw_line) = Some m2 ->
  group 1 m2 ≫= py_float = None \/ group 2 m2 ≫= py_float = None ->
  loop_body cfg dry_run popen_ok now raw_line c = Raised
  /\ run_loop cfg dry_run popen_ok c (Line now raw_line :: rest)
     = (c, [Print MsgError; Terminate], Failed).
Proof.
  intros Hb Hu Hbad.
  assert (Hbody : loop_body cfg dry_run popen_ok now raw_line c = Raised).
  { unfold loop_body. cbv zeta. rewrite Hb, Hu.
    destruct Hbad as [H1 | H2].
    - rewrite H1. reflexivity.
    - rewrite H2. destruct (group 1 m2 ≫= py_float); reflexivity. }
  split; [exact Hbody |].
  cbn [run_loop]. rewrite Hbody. reflexivity.
Qed.

Lemma malformed_delta_ends_the_run_witness :
  search LINE_RE_GESTURE_BEGIN (strip "GESTURE_SWIPE_UPDATE delta - 5") = None
  /\ search LINE_RE_GESTURE_UPDATE (strip "GESTURE_SWIPE_UPDATE delta - 5")
     = Some ["-"; "5"]
  /\ py_float "-" = None
  /\ run_loop CONFIG_DEFAULT false (fun _ => true) (init CONFIG_DEFAULT)
       [Line 1 "GESTURE_SWIPE_UPDATE delta - 5"; KeyboardInterrupt]
     = (init CONFIG_DEFAULT, [Print MsgError; Terminate], Failed).
Proof.
  assert (Hb : search LINE_RE_GESTURE_BEGIN
                 (strip "GESTURE_SWIPE_UPDATE delta - 5") = None)
    by (vm_compute; reflexivity).
  assert (Hu : search LINE_RE_GESTURE_UPDATE
                 (strip "GESTURE_SWIPE_UPDATE delta - 5") = Some ["-"; "5"])
    by (vm_compute; reflexivity).
  assert (Hf : py_float "-" = None) by reflexivity.
  split; [exact Hb | split; [exact Hu | split; [exact Hf |]]].
  apply (malformed_delta_ends_the_run CONFIG_DEFAULT false (fun _ => true)
           (init CONFIG_DEFAULT) 1 _ [KeyboardInterrupt] _ Hb Hu).
  left. exact Hf.
Defined.

(** C1 as stated fails: the line [GESTURE_SWIPE_UPDATE delta 1.2.3 4] has
    the update shape and a first delta that [float] rejects; the run stops
    there with the error report, and the begin line that follows, which on
    its own would start a session, is never processed. *)
Lemma malformed_delta_ends_the_run_counterexample :
  search LINE_RE_GESTURE_UPDATE (strip "GESTURE_SWIPE_UPDATE delta 1.2.3 4")
  = Some ["1.2.3"; "4"]
  /\ py_float "1.2.3" = None
  /\ run_loop CONFIG_DEFAULT false (fun _ => true) (init CONFIG_DEFAULT)
       [Line 1 "GESTURE_SWIPE_UPDATE delta 1.2.3 4";
        Line 2 "GESTURE_SWIPE_BEGIN n_fingers 3"]
     = (init CONFIG_DEFAULT, [Print MsgError; Terminate], Failed)
  /\ run_loop CONFIG_DEFAULT false (fun _ => true) (init CONFIG_DEFAULT)
       [Line 2 "GESTURE_SWIPE_BEGIN n_fingers 3"]
     = (begin 2 3 (init CONFIG_DEFAULT), [], Exhausted).
Proof.
  split; [vm_compute; reflexivity |].
  split; [reflexivity |].
  split; vm_compute; reflexivity.
Qed.

(** * Further properties of the code *)

(** ** The classifier under scaling, mirroring and transposition *)

(** Case analysis on every test of the classifier, in the goal and in the
    hypothesis [H], with the two maxima resolved. *)
Ltac classify_both H :=
  revert H; classify_cases; intros H;
  try discriminate H; try (injection H as H); try congruence.

(** When each direction is returned. *)
Lemma horizontal_iff dx dy th d :
  determine_direction dx dy th = Some d /\ (d = Right \/ d = Left) <->
  px_min th <= py_max (Qabs dx) (Qabs dy)
  /\ Qabs dy * axis_ratio th <= Qabs dx
  /\ (d = Right /\ 0 < dx \/ d = Left /\ dx <= 0).
Proof.
  classify_cases; split; intros H; destruct d;
    try (exfalso; intuition (try discriminate; try congruence; lra));
    intuition (try discriminate; try congruence; try lra).
Qed.

Lemma vertical_iff dx dy th d :
  determine_direction dx dy th = Some d /\ (d = Down \/ d = Up) <->
  px_min th <= py_max (Qabs dx) (Qabs dy)
  /\ Qabs dx < Qabs dy * axis_ratio th
  /\ Qabs dx * axis_ratio th <= Qabs dy
  /\ (d = Down /\ 0 < dy \/ d = Up /\ dy <= 0).
Proof.
  classify_cases; split; intros H; destruct d;
    try (exfalso; intuition (try discriminate; try congruence; lra));
    intuition (try discriminate; try congruence; try lra).
Qed.

(** The larger axis, when one axis dominates the other by a ratio of at
    least 1. *)
Lemma py_max_dominant x y r :
  0 <= y -> 1 <= r -> y * r <= x -> py_max x y == x.
Proof.
  intros Hy Hr Hd.
  destruct (py_max_cases x y) as [[_ ->] | [Hlt _]]; [reflexivity | exfalso; nra].
Qed.

Lemma py_max_dominated x y r :
  0 <= x -> 1 <= r -> x * r <= y -> py_max x y == y.
Proof.
  intros Hx Hr Hd.
  destruct (py_max_cases x y) as [[Hle ->] | [_ ->]]; [| reflexivity].
  assert (x <= y) by nra. lra.
Qed.

(** X1: with an axis ratio of at least 1, a recognised direction is kept
    when the swipe gets longer along it, the other delta staying as it is:
    [Right] stays [Right] when [dx] grows, [Left] stays [Left] when [dx]
    falls, and likewise [Down] and [Up] for [dy]. *)
Theorem direction_is_monotone (dx dy d' : Q) (th : threshold) :
  1 <= axis_ratio th ->
  (determine_direction dx dy th = Some Right -> dx <= d' ->
   determine_direction d' dy th = Some Right)
  /\ (determine_direction dx dy th = Some Left -> d' <= dx ->
      determine_direction d' dy th = Some Left)
  /\ (determine_direction dx dy th = Some Down -> dy <= d' ->
      determine_direction dx d' th = Some Down)
  /\ (determine_direction dx dy th = Some Up -> d' <= dy ->
      determine_direction dx d' th = Some Up).
Proof.
  intros Hr.
  pose proof (Qabs_nonneg dx) as Hx. pose proof (Qabs_nonneg dy) as Hy.
  pose proof (Qabs_nonneg d') as Hd'.
  split; [| split; [| split]]; intros H Hd1.
  - assert (Hh := proj1 (horizontal_iff dx dy th Right) (conj H (or_introl eq_refl))).
    destruct Hh as (Hm & Ht & [[_ Hs] | [Hs _]]); [| discriminate Hs].
    rewrite (py_max_dominant _ _ _ Hy Hr Ht) in Hm.
    rewrite (Qabs_pos dx) in * by lra.
    assert (Ha' : Qabs d' == d') by (apply Qabs_pos; lra).
    assert (Ht' : Qabs dy * axis_ratio th <= Qabs d') by (rewrite Ha'; nra).
    apply (horizontal_iff d' dy th Right).
    split; [| split; [exact Ht' | left; split; [reflexivity | lra]]].
    rewrite (py_max_dominant _ _ _ Hy Hr Ht'). lra.
  - assert (Hh := proj1 (horizontal_iff dx dy th Left) (conj H (or_intror eq_refl))).
    destruct Hh as (Hm & Ht & [[Hs _] | [_ Hs]]); [discriminate Hs |].
    rewrite (py_max_dominant _ _ _ Hy Hr Ht) in Hm.
    rewrite (Qabs_neg dx) in * by lra.
    assert (Ha' : Qabs d' == - d') by (apply Qabs_neg; lra).
    assert (Ht' : Qabs dy * axis_ratio th <= Qabs d') by (rewrite Ha'; nra).
    apply (horizontal_iff d' dy th Left).
    split; [| split; [exact Ht' | right; split; [reflexivity | lra]]].
    rewrite (py_max_dominant _ _ _ Hy Hr Ht'). lra.
  - assert (Hv := proj1 (vertical_iff dx dy th Down) (conj H (or_introl eq_refl))).
    destruct Hv as (Hm & Hn & Ht & [[_ Hs] | [Hs _]]); [| discriminate Hs].
    rewrite (py_max_dominated _ _ _ Hx Hr Ht) in Hm.
    rewrite (Qabs_pos dy) in * by lra.
    assert (Ha' : Qabs d' == d') by (apply Qabs_pos; lra).
    assert (Ht' : Qabs dx * axis_ratio th <= Qabs d') by (rewrite Ha'; nra).
    apply (vertical_iff dx d' th Down).
    split; [| split; [rewrite Ha'; nra
                     | split; [exact Ht' | left; split; [reflexivity | lra]]]].
    rewrite (py_max_dominated _ _ _ Hx Hr Ht'). lra.
  - assert (Hv := proj1 (vertical_iff dx dy th Up) (conj H (or_intror eq_refl))).
    destruct Hv as (Hm & Hn & Ht & [[Hs _] | [_ Hs]]); [discriminate Hs |].
    rewrite (py_max_dominated _ _ _ Hx Hr Ht) in Hm.
    rewrite (Qabs_neg dy) in * by lra.
    assert (Ha' : Qabs d' == - d') by (apply Qabs_neg; lra).
    assert (Ht' : Qabs dx * axis_ratio th <= Qabs d') by (rewrite Ha'; nra).
    apply (vertical_iff dx d' th Up).
    split; [| split; [rewrite Ha'; nra
                     | split; [exact Ht' | right; split; [reflexivity | lra]]]].
    rewrite (py_max_dominated _ _ _ Hx Hr Ht'). lra.
Qed.

Lemma direction_is_monotone_witness :
  1 <= axis_ratio (Threshold 50 (15 # 10))
  /\ determine_direction 60 (-10) (Threshold 50 (15 # 10)) = Some Right
  /\ 60 <= 95
  /\ determine_direction 95 (-10) (Threshold 50 (15 # 10)) = Some Right.
Proof.
  assert (Hr : 1 <= axis_ratio (Threshold 50 (15 # 10)))
    by (vm_compute; discriminate).
  assert (H : determine_direction 60 (-10) (Threshold 50 (15 # 10)) = Some Right)
    by reflexivity.
  assert (H1 : 60 <= 95) by (vm_compute; discriminate).
  split; [exact Hr | split; [exact H | split; [exact H1 |]]].
  exact (proj1 (direction_is_monotone 60 (-10) 95 (Threshold 50 (15 # 10)) Hr)
               H H1).
Defined.

(** X2: reversing a non-zero horizontal delta swaps [Right] and [Left] and
    changes nothing else; reversing a non-zero vertical delta swaps [Down]
    and [Up] and changes nothing else. (A zero delta on the selected axis is
    always [Left], respectively [Up], so the condition cannot be dropped.) *)
Theorem direction_mirrors (dx dy : Q) (th : threshold) :
  (~ dx == 0 ->
   determine_direction (- dx) dy th = mirror_x <$> determine_direction dx dy th)
  /\ (~ dy == 0 ->
      determine_direction dx (- dy) th = mirror_y <$> determine_direction dx dy th).
Proof.
  pose proof (Qabs_opp dx) as Hox. pose proof (Qabs_opp dy) as Hoy.
  split; intros Hnz.
  - assert (Hs : dx < 0 \/ 0 < dx)
      by (destruct (Q_dec dx 0) as [[H | H] | H]; [now left | now right | tauto]).
    destruct Hs as [Hs | Hs];
    destruct (py_max_cases (Qabs dx) (Qabs dy)) as [[Hc Hm] | [Hc Hm]];
      destruct (py_max_cases (Qabs (- dx)) (Qabs dy)) as [[Hc' Hm'] | [Hc' Hm']];
      classify_cases; try reflexivity; exfalso; rewrite ?Hm, ?Hm' in *; nra.
  - assert (Hs : dy < 0 \/ 0 < dy)
      by (destruct (Q_dec dy 0) as [[H | H] | H]; [now left | now right | tauto]).
    destruct Hs as [Hs | Hs];
    destruct (py_max_cases (Qabs dx) (Qabs dy)) as [[Hc Hm] | [Hc Hm]];
      destruct (py_max_cases (Qabs dx) (Qabs (- dy))) as [[Hc' Hm'] | [Hc' Hm']];
      classify_cases; try reflexivity; exfalso; rewrite ?Hm, ?Hm' in *; nra.
Qed.

Lemma direction_mirrors_witness :
  ~ 80 == 0
  /\ determine_direction 80 5 (Threshold 50 (15 # 10)) = Some Right
  /\ determine_direction (- 80) 5 (Threshold 50 (15 # 10)) = Some Left.
Proof.
  assert (Hnz : ~ 80 == 0) by (vm_compute; discriminate).
  split; [exact Hnz | split; [reflexivity |]].
  exact (proj1 (direction_mirrors 80 5 (Threshold 50 (15 # 10))) Hnz).
Defined.

(** X3: with an axis ratio of at least 1, off the exact diagonal,
    exchanging the two deltas exchanges the axes of the result ([Right] with
    [Down], [Left] with [Up]): the order of the two axis tests then plays no
    part. *)
Theorem direction_transposes (dx dy : Q) (th : threshold) :
  1 <= axis_ratio th ->
  ~ Qabs dx == Qabs dy ->
  determine_direction dy dx th = transpose <$> determine_direction dx dy th.
Proof.
  intros Hr Hne.
  pose proof (Qabs_nonneg dx) as Hx. pose proof (Qabs_nonneg dy) as Hy.
  assert (Hs : Qabs dx < Qabs dy \/ Qabs dy < Qabs dx).
  { destruct (Q_dec (Qabs dx) (Qabs dy)) as [[H | H] | H];
      [now left | now right | contradiction]. }
  destruct Hs as [Hs | Hs];
    destruct (py_max_cases (Qabs dx) (Qabs dy)) as [[Hc Hm] | [Hc Hm]];
    destruct (py_max_cases (Qabs dy) (Qabs dx)) as [[Hc' Hm'] | [Hc' Hm']];
    classify_cases; try reflexivity; exfalso; rewrite ?Hm, ?Hm' in *; nra.
Qed.

Lemma direction_transposes_witness :
  1 <= axis_ratio (Threshold 50 (15 # 10))
  /\ ~ Qabs 5 == Qabs (-80)
  /\ determine_direction 5 (-80) (Threshold 50 (15 # 10)) = Some Up
  /\ determine_direction (-80) 5 (Threshold 50 (15 # 10)) = Some Left.
Proof.
  assert (Hr : 1 <= axis_ratio (Threshold 50 (15 # 10)))
    by (vm_compute; discriminate).
  assert (Hne : ~ Qabs 5 == Qabs (-80)) by (vm_compute; discriminate).
  split; [exact Hr | split; [exact Hne | split; [reflexivity |]]].
  exact (direction_transposes 5 (-80) (Threshold 50 (15 # 10)) Hr Hne).
Defined.

(** ** The loop body as parser and handler *)

Lemma loop_body_parse cfg dry_run popen_ok now raw_line c :
  loop_body cfg dry_run popen_ok now raw_line c =
  match parse_line raw_line with
  | EvBegin n => Next (begin now n c) []
  | EvUpdate dx dy => Next (update now dx dy c) []
  | EvEnd n =>
      match end_ n c with
      | Returns (None, c') => Next c' []
      | Returns (Some (f, dx, dy), c') =>
          Next c' (dispatch cfg dry_run popen_ok f dx dy)
      | Deadlock => Stuck
      end
  | EvNone => Next c []
  | EvBad => Raised
  end.
Proof.
  unfold loop_body, parse_line. cbv zeta.
  destruct (search LINE_RE_GESTURE_BEGIN (strip raw_line)) as [m |].
  { destruct (group 1 m ≫= py_int); reflexivity. }
  destruct (search LINE_RE_GESTURE_UPDATE (strip raw_line)) as [m2 |].
  { destruct (group 1 m2 ≫= py_float); [| reflexivity].
    destruct (group 2 m2 ≫= py_float); reflexivity. }
  destruct (search LINE_RE_GESTURE_END (strip raw_line)) as [m3 |].
  { destruct (group 1 m3 ≫= py_int); reflexivity. }
  reflexivity.
Qed.

(** [end] returns [None] on an inactive collector and never returns on an
    active one. *)
Lemma end_cases (c : GestureCollector.t) (n : Z) :
  (active c = false /\ end_ n c = Returns (None, c))
  \/ (active c = true /\ end_ n c = Deadlock).
Proof.
  unfold end_, with_lock, reset_call. destruct (active c); [right | left];
    split; reflexivity.
Qed.

(** What one iteration does to the collector, whatever it prints. *)
Lemma loop_body_collector cfg dry_run popen_ok now raw_line c c' out :
  loop_body cfg dry_run popen_ok now raw_line c = Next c' out ->
  (exists n, c' = begin now n c)
  \/ (exists dx dy, c' = update now dx dy c)
  \/ c' = c.
Proof.
  rewrite loop_body_parse. destruct (parse_line raw_line) as [n | dx dy | n | |].
  - intros [= <- <-]. eauto.
  - intros [= <- <-]. eauto 6.
  - destruct (end_cases c n) as [[_ ->] | [_ ->]]; [| discriminate].
    intros [= <- <-]. eauto.
  - intros [= <- <-]. eauto.
  - discriminate.
Qed.

(** What one iteration prints and runs: nothing, or one dispatch. *)
Lemma loop_body_out cfg dry_run popen_ok now raw_line c c' out :
  loop_body cfg dry_run popen_ok now raw_line c = Next c' out ->
  out = [] \/ exists f dx dy, out = dispatch cfg dry_run popen_ok f dx dy.
Proof.
  rewrite loop_body_parse. destruct (parse_line raw_line) as [n | dx dy | n | |].
  - intros [= <- <-]. now left.
  - intros [= <- <-]. now left.
  - destruct (end_ n c) as [[[[[f dx] dy] |] c2] |]; [| | discriminate];
      intros [= <- <-]; eauto.
  - intros [= <- <-]. now left.
  - discriminate.
Qed.

Lemma run_loop_line cfg dry_run popen_ok c now raw_line rest :
  run_loop cfg dry_run popen_ok c (Line now raw_line :: rest) =
  match loop_body cfg dry_run popen_ok now raw_line c with
  | Next c' out =>
      (((run_loop cfg dry_run popen_ok c' rest).1.1,
        out ++ (run_loop cfg dry_run popen_ok c' rest).1.2),
       (run_loop cfg dry_run popen_ok c' rest).2)
  | Raised => (c, [Print MsgError; Terminate], Failed)
  | Stuck => (c, [], Hung)
  end.
Proof.
  cbn [run_loop]. destruct (loop_body cfg dry_run popen_ok now raw_line c);
    [| reflexivity | reflexivity].
  destruct (run_loop cfg dry_run popen_ok c0 rest) as [[c2 out'] st]. reflexivity.
Qed.

(** ** Invariants of a run *)

(** One iteration never reaches the dispatch: it prints and runs nothing. *)
Lemma loop_body_silent cfg dry_run popen_ok now raw_line c c' out :
  loop_body cfg dry_run popen_ok now raw_line c = Next c' out -> out = [].
Proof.
  rewrite loop_body_parse. destruct (parse_line raw_line) as [n | dx dy | n | |];
    try (intros [= <- <-]; reflexivity); try discriminate.
  destruct (end_cases c n) as [[_ ->] | [_ ->]]; [| discriminate].
  intros [= <- <-]. reflexivity.
Qed.

(** X4: the daemon never dispatches a gesture. A session, once begun, stays
    active for the rest of the run, because the only call that would end it
    never returns; so whatever the stream holds, from whatever collector
    state, a run prints nothing but its final report and launches no
    command at all. *)
Theorem no_gesture_is_ever_dispatched (cfg : Config) (dry_run : bool)
    (popen_ok : string -> bool) (c : GestureCollector.t)
    (items : list stream_item) :
  (active c = true ->
   active (run_loop cfg dry_run popen_ok c items).1.1 = true)
  /\ ((run_loop cfg dry_run popen_ok c items).1.2 = []
      \/ (run_loop cfg dry_run popen_ok c items).1.2
         = [Print MsgInterrupt; Terminate]
      \/ (run_loop cfg dry_run popen_ok c items).1.2
         = [Print MsgError; Terminate])
  /\ spawned (run_loop cfg dry_run popen_ok c items).1.2 = [].
Proof.
  revert c. induction items as [| [now raw_line | |] rest IH]; intros c;
    try (simpl; split; [tauto | split; [tauto | reflexivity]]).
  rewrite run_loop_line.
  destruct (loop_body cfg dry_run popen_ok now raw_line c) as [c' out | |] eqn:E;
    try (simpl; split; [tauto | split; [tauto | reflexivity]]).
  pose proof (loop_body_silent _ _ _ _ _ _ _ _ E) as ->.
  cbn [fst snd app]. destruct (IH c') as (Ha & Hout & Hsp).
  split; [| split; [exact Hout | exact Hsp]].
  intros Hc. apply Ha.
  apply loop_body_collector in E as [[n ->] | [(dx & dy & ->) | ->]].
  - reflexivity.
  - unfold update. rewrite Hc. reflexivity.
  - exact Hc.
Qed.

Lemma no_gesture_is_ever_dispatched_witness :
  active (begin 1 3 (init CONFIG_DEFAULT)) = true
  /\ active (run_loop CONFIG_DEFAULT false (fun _ => true)
               (begin 1 3 (init CONFIG_DEFAULT))
               [Line 2 "GESTURE_SWIPE_UPDATE delta -80.5 2.0";
                Line 3 "GESTURE_SWIPE_END n_fingers 3";
                Line 4 "GESTURE_SWIPE_BEGIN n_fingers 4"]).1.1 = true.
Proof.
  assert (Ha : active (begin 1 3 (init CONFIG_DEFAULT)) = true) by reflexivity.
  split; [exact Ha |].
  exact (proj1 (no_gesture_is_ever_dispatched CONFIG_DEFAULT false (fun _ => true)
                  (begin 1 3 (init CONFIG_DEFAULT)) _) Ha).
Defined.

(** A list of events written out in full does not hold [Terminate]. *)
Ltac no_terminate :=
  let Hin := fresh "Hin" in
  intros Hin;
  repeat (apply elem_of_cons in Hin as [Hin | Hin]; [discriminate Hin |]);
  now apply elem_of_nil in Hin.

Lemma execute_action_no_terminate popen_ok command dry :
  Terminate ∉ execute_action popen_ok command dry.
Proof.
  unfold execute_action. destruct (decide (command = EmptyString)); [no_terminate |].
  destruct dry; [no_terminate |]. destruct (popen_ok command); no_terminate.
Qed.

Lemma dispatch_no_terminate cfg dry_run popen_ok f dx dy :
  Terminate ∉ dispatch cfg dry_run popen_ok f dx dy.
Proof.
  unfold dispatch. destruct (determine_direction dx dy (cfg_threshold cfg));
    [| no_terminate]. cbv zeta.
  apply not_elem_of_cons. split; [discriminate |].
  destruct (cfg_gestures cfg !! gesture_key f d) as [command |]; [| no_terminate].
  destruct (decide (command = EmptyString)); [no_terminate |].
  apply execute_action_no_terminate.
Qed.

Lemma loop_body_no_terminate cfg dry_run popen_ok now raw_line c c' out :
  loop_body cfg dry_run popen_ok now raw_line c = Next c' out -> Terminate ∉ out.
Proof.
  intros H. apply loop_body_out in H as [-> | (f & dx & dy & ->)];
    [no_terminate | apply dispatch_no_terminate].
Qed.

(** X5: the producer is terminated exactly when the loop is left by an
    interrupt or an error, and then as the very last action, right after the
    report; when the producer's output simply ends, or the run hangs,
    [terminate] is never called. *)
Theorem terminate_only_when_stopped (cfg : Config) (dry_run : bool)
    (popen_ok : string -> bool) (c : GestureCollector.t)
    (items : list stream_item) :
  match (run_loop cfg dry_run popen_ok c items).2 with
  | Exhausted => Terminate ∉ (run_loop cfg dry_run popen_ok c items).1.2
  | Interrupted =>
      exists pre, (run_loop cfg dry_run popen_ok c items).1.2
                  = pre ++ [Print MsgInterrupt; Terminate]
                  /\ Terminate ∉ pre
  | Failed =>
      exists pre, (run_loop cfg dry_run popen_ok c items).1.2
                  = pre ++ [Print MsgError; Terminate]
                  /\ Terminate ∉ pre
  | Hung => Terminate ∉ (run_loop cfg dry_run popen_ok c items).1.2
  end.
Proof.
  revert c. induction items as [| [now raw_line | |] rest IH]; intros c.
  - simpl. no_terminate.
  - rewrite run_loop_line.
    destruct (loop_body cfg dry_run popen_ok now raw_line c) as [c' out | |] eqn:E.
    + apply loop_body_no_terminate in E. specialize (IH c'). cbn [fst snd].
      destruct ((run_loop cfg dry_run popen_ok c' rest).2).
      * apply not_elem_of_app. now split.
      * destruct IH as (pre & -> & Hpre). exists (out ++ pre).
        split; [now rewrite app_assoc | apply not_elem_of_app; now split].
      * destruct IH as (pre & -> & Hpre). exists (out ++ pre).
        split; [now rewrite app_assoc | apply not_elem_of_app; now split].
      * apply not_elem_of_app. now split.
    + simpl. exists []. split; [reflexivity | no_terminate].
    + simpl. no_terminate.
  - simpl. exists []. split; [reflexivity | no_terminate].
  - simpl. exists []. split; [reflexivity | no_terminate].
Qed.

(** An item that stops the loop wherever it is read hides what follows it. *)
Lemma stop_hides_the_rest cfg dry_run popen_ok item post :
  (forall c, run_loop cfg dry_run popen_ok c (item :: post)
             = run_loop cfg dry_run popen_ok c [item]) ->
  forall pre c,
    run_loop cfg dry_run popen_ok c (pre ++ item :: post)
    = run_loop cfg dry_run popen_ok c (pre ++ [item]).
Proof.
  intros Hstop. induction pre as [| [now0 raw0 | |] pre IH]; intros c.
  - apply Hstop.
  - cbn [app]. rewrite !run_loop_line.
    destruct (loop_body cfg dry_run popen_ok now0 raw0 c) as [c' out | |];
      [now rewrite IH | reflexivity | reflexivity].
  - reflexivity.
  - reflexivity.
Qed.

(** X6: once the loop has been left, nothing more is read: whatever follows
    an interrupt, a read failure or a line whose conversion raises has no
    influence on the collector, on what is printed and run, or on the
    status. *)
Theorem nothing_is_read_after_a_stop (cfg : Config) (dry_run : bool)
    (popen_ok : string -> bool) (c : GestureCollector.t)
    (pre post : list stream_item) :
  run_loop cfg dry_run popen_ok c (pre ++ KeyboardInterrupt :: post)
  = run_loop cfg dry_run popen_ok c (pre ++ [KeyboardInterrupt])
  /\ run_loop cfg dry_run popen_ok c (pre ++ ReadError :: post)
     = run_loop cfg dry_run popen_ok c (pre ++ [ReadError])
  /\ (forall now raw_line,
        parse_line raw_line = EvBad ->
        run_loop cfg dry_run popen_ok c (pre ++ Line now raw_line :: post)
        = run_loop cfg dry_run popen_ok c (pre ++ [Line now raw_line])).
Proof.
  split; [| split].
  - apply stop_hides_the_rest. reflexivity.
  - apply stop_hides_the_rest. reflexivity.
  - intros now raw_line Hbad. apply stop_hides_the_rest. intros c0.
    rewrite !run_loop_line, loop_body_parse, Hbad. reflexivity.
Qed.

Lemma nothing_is_read_after_a_stop_witness :
  parse_line "GESTURE_SWIPE_UPDATE delta 1..2 3" = EvBad
  /\ run_loop CONFIG_DEFAULT false (fun _ => true) (init CONFIG_DEFAULT)
       ([Line 1 "GESTURE_SWIPE_BEGIN n_fingers 4"]
        ++ Line 2 "GESTURE_SWIPE_UPDATE delta 1..2 3"
        :: [Line 3 "GESTURE_SWIPE_END n_fingers 4"])
     = run_loop CONFIG_DEFAULT false (fun _ => true) (init CONFIG_DEFAULT)
         ([Line 1 "GESTURE_SWIPE_BEGIN n_fingers 4"]
          ++ [Line 2 "GESTURE_SWIPE_UPDATE delta 1..2 3"]).
Proof.
  assert (Hbad : parse_line "GESTURE_SWIPE_UPDATE delta 1..2 3" = EvBad)
    by (vm_compute; reflexivity).
  split; [exact Hbad |].
  exact (proj2 (proj2 (nothing_is_read_after_a_stop CONFIG_DEFAULT false
                         (fun _ => true) (init CONFIG_DEFAULT)
                         [Line 1 "GESTURE_SWIPE_BEGIN n_fingers 4"]
                         [Line 3 "GESTURE_SWIPE_END n_fingers 4"]))
               2 _ Hbad).
Defined.

(** ** What a run launches *)








(** ** Whole gestures in the stream *)

Lemma run_loop_eta cfg dry_run popen_ok c items :
  ((run_loop cfg dry_run popen_ok c items).1.1,
   (run_loop cfg dry_run popen_ok c items).1.2,
   (run_loop cfg dry_run popen_ok c items).2)
  = run_loop cfg dry_run popen_ok c items.
Proof. now destruct (run_loop cfg dry_run popen_ok c items) as [[c' out] st]. Qed.

(** A line with no output: the run goes on from the new collector. *)
Lemma run_loop_silent cfg dry_run popen_ok c c' now raw_line rest :
  loop_body cfg dry_run popen_ok now raw_line c = Next c' [] ->
  run_loop cfg dry_run popen_ok c (Line now raw_line :: rest)
  = run_loop cfg dry_run popen_ok c' rest.
Proof.
  intros H. rewrite run_loop_line, H. cbn [app]. apply run_loop_eta.
Qed.

(** X9: a line that matches none of the three patterns is skipped without
    a trace: removing it from anywhere in the stream leaves the final
    collector, everything printed and run, and the status unchanged. *)
Theorem unmatched_lines_are_skipped (cfg : Config) (dry_run : bool)
    (popen_ok : string -> bool) (c : GestureCollector.t) (now : Q)
    (raw_line : string) (pre post : list stream_item) :
  parse_line raw_line = EvNone ->
  run_loop cfg dry_run popen_ok c (pre ++ Line now raw_line :: post)
  = run_loop cfg dry_run popen_ok c (pre ++ post).
Proof.
  intros Hnone. revert c.
  induction pre as [| [now0 raw0 | |] pre IH]; intros c; try reflexivity.
  - cbn [app]. apply run_loop_silent. now rewrite loop_body_parse, Hnone.
  - cbn [app]. rewrite !run_loop_line.
    destruct (loop_body cfg dry_run popen_ok now0 raw0 c) as [c' out | |];
      [now rewrite IH | reflexivity | reflexivity].
Qed.

Lemma unmatched_lines_are_skipped_witness :
  parse_line " event4  POINTER_MOTION +1.2s  0.50/ 1.25" = EvNone
  /\ run_loop CONFIG_DEFAULT false (fun _ => true) (init CONFIG_DEFAULT)
       ([Line 1 "GESTURE_SWIPE_BEGIN n_fingers 3"]
        ++ Line 2 " event4  POINTER_MOTION +1.2s  0.50/ 1.25"
        :: [Line 3 "GESTURE_SWIPE_END n_fingers 3"])
     = run_loop CONFIG_DEFAULT false (fun _ => true) (init CONFIG_DEFAULT)
         ([Line 1 "GESTURE_SWIPE_BEGIN n_fingers 3"]
          ++ [Line 3 "GESTURE_SWIPE_END n_fingers 3"]).
Proof.
  assert (Hnone : parse_line " event4  POINTER_MOTION +1.2s  0.50/ 1.25" = EvNone)
    by (vm_compute; reflexivity).
  split; [exact Hnone |].
  exact (unmatched_lines_are_skipped CONFIG_DEFAULT false (fun _ => true)
           (init CONFIG_DEFAULT) 2 _
           [Line 1 "GESTURE_SWIPE_BEGIN n_fingers 3"]
           [Line 3 "GESTURE_SWIPE_END n_fingers 3"] Hnone).
Defined.




(** ** Mapping keys *)

Lemma list_ascii_of_string_app s1 s2 :
  list_ascii_of_string (s1 +:+ s2)
  = list_ascii_of_string s1 ++ list_ascii_of_string s2.
Proof. induction s1 as [| a s1 IH]; simpl; [reflexivity | now rewrite IH]. Qed.

Lemma list_ascii_of_string_inj s1 s2 :
  list_ascii_of_string s1 = list_ascii_of_string s2 -> s1 = s2.
Proof.
  intros H. rewrite <- (string_of_list_ascii_of_string s1),
    <- (string_of_list_ascii_of_string s2). now rewrite H.
Qed.

(** The key, read from its end: the direction reversed, the underscore, and
    the digits of the finger count reversed. *)
Lemma gesture_key_reversed f d :
  rev (list_ascii_of_string (gesture_key f d))
  = rev (list_ascii_of_string (direction_name d))
    ++ "_"%char :: rev (list_ascii_of_string (pretty f)).
Proof.
  unfold gesture_key. rewrite !list_ascii_of_string_app, !rev_app_distr.
  simpl. now rewrite <- app_assoc.
Qed.

(** X11: the lookup key determines the gesture: two gestures with the same
    key [f"{f}_{direction}"] have the same finger count and the same
    direction, so no mapping entry can serve two different gestures. *)
Theorem gesture_key_is_injective (f1 f2 : Z) (d1 d2 : direction) :
  gesture_key f1 d1 = gesture_key f2 d2 -> f1 = f2 /\ d1 = d2.
Proof.
  intros H. apply (f_equal (fun s => rev (list_ascii_of_string s))) in H.
  rewrite !gesture_key_reversed in H.
  destruct d1, d2; simpl in H; try discriminate H;
    (split; [| reflexivity]);
    injection H as H; apply (f_equal (@rev ascii)) in H;
    rewrite !rev_involutive in H;
    apply list_ascii_of_string_inj in H; now apply (inj pretty) in H.
Qed.

Lemma gesture_key_is_injective_witness :
  gesture_key 3 Left = gesture_key (1 + 2) (mirror_x Right)
  /\ 3%Z = (1 + 2)%Z /\ Left = mirror_x Right.
Proof.
  assert (H : gesture_key 3 Left = gesture_key (1 + 2) (mirror_x Right))
    by reflexivity.
  split; [exact H |].
  exact (gesture_key_is_injective 3 (1 + 2) Left (mirror_x Right) H).
Defined.

(** ** Captured groups of the three patterns *)

(** X12: a successful search of the begin or the end pattern captures
    exactly one group, a non-empty run of digits, and a successful search of
    the update pattern captures exactly two groups, each a non-empty run of
    digits, minus signs and points; [group(1)] and [group(2)] are therefore
    always defined where the loop reads them. *)
Theorem captured_groups_fit (line : string) (m : list string) :
  (search LINE_RE_GESTURE_BEGIN line = Some m ->
   exists g, m = [g] /\ fits is_digit g)
  /\ (search LINE_RE_GESTURE_END line = Some m ->
      exists g, m = [g] /\ fits is_digit g)
  /\ (search LINE_RE_GESTURE_UPDATE line = Some m ->
      exists g1 g2, m = [g1; g2]
                    /\ fits is_delta_char g1 /\ fits is_delta_char g2).
Proof.
  split; [| split]; intros H; apply search_groups in H; simpl in H.
  - inversion H as [| cls g ? ? Hfit Hrest]; subst. inversion Hrest; subst. eauto.
  - inversion H as [| cls g ? ? Hfit Hrest]; subst. inversion Hrest; subst. eauto.
  - inversion H as [| cls g1 ? ? Hfit1 Hrest]; subst.
    inversion Hrest as [| cls g2 ? ? Hfit2 Hrest']; subst.
    inversion Hrest'; subst. eauto.
Qed.

Lemma captured_groups_fit_witness :
  search LINE_RE_GESTURE_UPDATE "GESTURE_SWIPE_UPDATE delta -1.5/2"
  = Some ["-1."; "5"]
  /\ exists g1 g2, ["-1."; "5"] = [g1; g2]
                   /\ fits is_delta_char g1 /\ fits is_delta_char g2.
Proof.
  assert (H : search LINE_RE_GESTURE_UPDATE "GESTURE_SWIPE_UPDATE delta -1.5/2"
              = Some ["-1."; "5"]) by (vm_compute; reflexivity).
  split; [exact H |].
  exact (proj2 (proj2 (captured_groups_fit _ _)) H).
Defined.

(** ** The merged configuration *)

Lemma dict_update_lookup {V} (d u : gmap string V) key :
  dict_update d u !! key
  = match u !! key with Some v => Some v | None => d !! key end.
Proof.
  unfold dict_update. rewrite lookup_union.
  destruct (u !! key), (d !! key); reflexivity.
Qed.

(** X13: whatever the user's file holds under [threshold] and [gestures],
    the merged configuration has both threshold keys, each the user's value
    when given and the default otherwise, so the classifier never misses a
    key; a gesture key is bound to the user's command when the user lists it
    and to the default otherwise; and every default gesture key stays bound:
    a user entry can replace a default gesture, never remove it. *)
Theorem merged_configuration (cfg : UserConfig) :
  (exists c,
     load_config cfg = Some c
     /\ cfg_gestures c = merged_gestures cfg
     /\ px_min (cfg_threshold c)
        = default 50 (default ∅ (user_threshold cfg) !! "px_min")
     /\ axis_ratio (cfg_threshold c)
        = default (15 # 10) (default ∅ (user_threshold cfg) !! "axis_ratio"))
  /\ (forall key,
        merged_gestures cfg !! key
        = match default ∅ (user_gestures cfg) !! key with
          | Some command => Some command
          | None => cfg_gestures CONFIG_DEFAULT !! key
          end)
  /\ (forall key,
        is_Some (cfg_gestures CONFIG_DEFAULT !! key) ->
        is_Some (merged_gestures cfg !! key)).
Proof.
  assert (Hg : forall key,
    merged_gestures cfg !! key
    = match default ∅ (user_gestures cfg) !! key with
      | Some command => Some command
      | None => cfg_gestures CONFIG_DEFAULT !! key
      end) by (intros key; apply dict_update_lookup).
  split; [| split; [exact Hg |]].
  - unfold load_config, read_threshold, merged_threshold.
    rewrite !dict_update_lookup.
    assert (Hpx : THRESHOLD_DEFAULT !! "px_min" = Some 50)
      by (vm_compute; reflexivity).
    assert (Hra : THRESHOLD_DEFAULT !! "axis_ratio" = Some (15 # 10))
      by (vm_compute; reflexivity).
    rewrite Hpx, Hra.
    destruct (default ∅ (user_threshold cfg) !! "px_min") as [px |];
      destruct (default ∅ (user_threshold cfg) !! "axis_ratio") as [ra |];
      simpl; eexists; repeat split.
  - intros key Hd. rewrite Hg.
    destruct (default ∅ (user_gestures cfg) !! key); [eauto | exact Hd].
Qed.

Lemma merged_configuration_witness :
  is_Some (cfg_gestures CONFIG_DEFAULT !! "4_up")
  /\ is_Some (merged_gestures
                (MkUserConfig (Some {[ "px_min" := 30 ]})
                              (Some {[ "3_left" := "true" ]})) !! "4_up").
Proof.
  assert (Hd : is_Some (cfg_gestures CONFIG_DEFAULT !! "4_up"))
    by (vm_compute; eauto).
  split; [exact Hd |].
  exact (proj2 (proj2 (merged_configuration
                         (MkUserConfig (Some {[ "px_min" := 30 ]})
                                       (Some {[ "3_left" := "true" ]}))))
               "4_up" Hd).
Defined.

(** ** Test mode *)




(** ** Tuning the thresholds *)

(** X15: lowering [px_min], or lowering [axis_ratio] without going below 1,
    never loses or changes a recognised gesture: a displacement that has a
    direction under the stricter thresholds has the same direction under the
    looser ones. *)
Theorem looser_thresholds_keep_the_direction (dx dy : Q) (th1 th2 : threshold)
    (d : direction) :
  px_min th1 <= px_min th2 ->
  1 <= axis_ratio th1 ->
  axis_ratio th1 <= axis_ratio th2 ->
  determine_direction dx dy th2 = Some d ->
  determine_direction dx dy th1 = Some d.
Proof.
  intros Hp H1 Hr H.
  pose proof (Qabs_nonneg dx) as Hx. pose proof (Qabs_nonneg dy) as Hy.
  classify_both H; exfalso; nra.
Qed.

Lemma looser_thresholds_keep_the_direction_witness :
  px_min (Threshold 30 (12 # 10)) <= px_min (Threshold 50 (15 # 10))
  /\ 1 <= axis_ratio (Threshold 30 (12 # 10))
  /\ axis_ratio (Threshold 30 (12 # 10)) <= axis_ratio (Threshold 50 (15 # 10))
  /\ determine_direction 20 (-70) (Threshold 50 (15 # 10)) = Some Up
  /\ determine_direction 20 (-70) (Threshold 30 (12 # 10)) = Some Up.
Proof.
  assert (Hp : px_min (Threshold 30 (12 # 10)) <= px_min (Threshold 50 (15 # 10)))
    by (vm_compute; discriminate).
  assert (H1 : 1 <= axis_ratio (Threshold 30 (12 # 10)))
    by (vm_compute; discriminate).
  assert (Hr : axis_ratio (Threshold 30 (12 # 10))
               <= axis_ratio (Threshold 50 (15 # 10)))
    by (vm_compute; discriminate).
  assert (H : determine_direction 20 (-70) (Threshold 50 (15 # 10)) = Some Up)
    by reflexivity.
  split; [exact Hp | split; [exact H1 | split; [exact Hr | split; [exact H |]]]].
  exact (looser_thresholds_keep_the_direction 20 (-70) _ _ Up Hp H1 Hr H).
Defined.

(** ** How much a run launches *)

